(** * golang-british: logging facade, gRPC error interceptor, application mode

    A shallow embedding of the three Go packages of the repository

      - [appmode]                      (appmode/app_mode.go)
      - [logger]                       (logger/logger.go)
      - [grpcerror]                    (grpc/middleware/grpcerror/grpc_error.go)

    together with the small part of the Go standard library ([errors],
    [context]) and of google.golang.org/grpc v1.50.0 ([codes], [status]) that
    [grpcerror] calls.  Package state (the global logger, the [sync.Once]
    cell, the entries handed to the logger) is threaded explicitly. *)

From Stdlib Require Import String Ascii List NArith ZArith Bool Lia DecimalString.
Import ListNotations.
Open Scope string_scope.

Set Warnings "-register-all".

(** ** Go values shared by the packages *)

(** [codes.Code] is a [uint32].  The program only stores, compares and prints
    codes, so a code is kept as the natural number it denotes. *)
Module codes.
Definition Code := N.

Definition OK : Code := 0%N.
Definition Canceled : Code := 1%N.
Definition Unknown : Code := 2%N.
Definition InvalidArgument : Code := 3%N.
Definition DeadlineExceeded : Code := 4%N.
Definition NotFound : Code := 5%N.
Definition AlreadyExists : Code := 6%N.
Definition PermissionDenied : Code := 7%N.
Definition ResourceExhausted : Code := 8%N.
Definition FailedPrecondition : Code := 9%N.
Definition Aborted : Code := 10%N.
Definition OutOfRange : Code := 11%N.
Definition Unimplemented : Code := 12%N.
Definition Internal : Code := 13%N.
Definition Unavailable : Code := 14%N.
Definition DataLoss : Code := 15%N.
Definition Unauthenticated : Code := 16%N.

Definition names : list string :=
  [ "OK"; "Canceled"; "Unknown"; "InvalidArgument"; "DeadlineExceeded";
    "NotFound"; "AlreadyExists"; "PermissionDenied"; "ResourceExhausted";
    "FailedPrecondition"; "Aborted"; "OutOfRange"; "Unimplemented";
    "Internal"; "Unavailable"; "DataLoss"; "Unauthenticated" ].

(** [func (c Code) String() string]: the name of a known code, and
    ["Code(n)"] for any other number. *)
Definition String (c : Code) : string :=
  match nth_error names (N.to_nat c) with
  | Some n => n
  | None => "Code(" ++ NilZero.string_of_uint (N.to_uint c) ++ ")"
  end.
End codes.

(** A [proto.Message] handed to [Status.WithDetails]: either it marshals to an
    [anypb.Any] (type URL and bytes) or marshalling fails with a reason. *)
Inductive Message : Type :=
| validMsg (type_url value : string)
| invalidMsg (reason : string).

Definition Any : Type := (string * string)%type.

(** [*status.Status]'s payload: code, message and marshalled details.  A
    pointer to it may be nil, which is [None] of [option Status] below. *)
Record Status : Type := mkStatus {
  st_code : codes.Code;
  st_message : string;
  st_details : list Any
}.

(** The two context errors a method [Is(target error) bool] is asked about by
    this program. *)
Inductive ctxTarget : Type := tCanceled | tDeadlineExceeded.

(** A non-nil Go [error] value.  The two sentinels of package [context] are
    values of their own, compared by identity; [*status.Error] is the error
    type of package [status]; every other error is described by the methods
    its dynamic type has: [Error()], and optionally [Unwrap() error] (which
    may return nil), [GRPCStatus() *Status] (which may return nil),
    [Details() []proto.Message] and [Is(error) bool]. *)
Inductive error : Type :=
| ctxCanceled
| ctxDeadlineExceeded
| statusError (s : Status)
| dynError (text : string)
           (unwrapM : option (option error))
           (grpcStatusM : option (option Status))
           (detailsM : option (list Message))
           (isM : option (ctxTarget -> bool)).

(** [*Status] accessors tolerate the nil receiver. *)
Definition Status_Code (s : option Status) : codes.Code :=
  match s with
  | None => codes.OK
  | Some s => st_code s
  end.

Definition Status_Message (s : option Status) : string :=
  match s with
  | None => ""
  | Some s => st_message s
  end.

(** [func (s *Status) String() string]. *)
Definition Status_String (s : option Status) : string :=
  "rpc error: code = " ++ codes.String (Status_Code s) ++ " desc = " ++ Status_Message s.

(** The method [Error() string] of an error value. *)
Definition err_Error (e : error) : string :=
  match e with
  | ctxCanceled => "context canceled"
  | ctxDeadlineExceeded => "context deadline exceeded"
  | statusError s => Status_String (Some s)
  | dynError text _ _ _ _ => text
  end.

Module context.
Definition Canceled : error := ctxCanceled.
Definition DeadlineExceeded : error := ctxDeadlineExceeded.
End context.

(** [a == b] against one of the context sentinels. *)
Definition is_target (e : error) (t : ctxTarget) : bool :=
  match e, t with
  | ctxCanceled, tCanceled => true
  | ctxDeadlineExceeded, tDeadlineExceeded => true
  | _, _ => false
  end.

Module errors.
(** [errors.New]: only an [Error] method. *)
Definition New (text : string) : error := dynError text None None None None.

(** [errors.Unwrap]: the result of the [Unwrap] method when the type has
    one, nil otherwise. *)
Definition Unwrap (err : error) : option error :=
  match err with
  | dynError _ (Some u) _ _ _ => u
  | _ => None
  end.

(** The [Is] method of the error's type, when it has one.  [*status.Error]
    has one; it answers false for a target that is no [*status.Error]. *)
Definition IsMethod (err : error) : option (ctxTarget -> bool) :=
  match err with
  | statusError _ => Some (fun _ => false)
  | dynError _ _ _ _ isM => isM
  | _ => None
  end.

(** [errors.Is(err, target)] for a context sentinel as target (Go 1.18):
    walk the chain; at each link compare with [==], then ask the link's [Is]
    method, then unwrap. *)
Fixpoint Is (err : error) (target : ctxTarget) : bool :=
  match err with
  | ctxCanceled => is_target ctxCanceled target
  | ctxDeadlineExceeded => is_target ctxDeadlineExceeded target
  | statusError _ => false
  | dynError _ u _ _ isM =>
      match isM with
      | Some f => f target
      | None => false
      end
      || match u with
         | Some (Some c) => Is c target
         | _ => false
         end
  end.
End errors.

(** [fmt.Errorf("...%w", cause)]: an error with [Unwrap] returning [cause]. *)
Definition fmt_Errorf_w (text : string) (cause : error) : error :=
  dynError text (Some (Some cause)) None None None.

Module status.
(** [status.New]. *)
Definition New (c : codes.Code) (msg : string) : option Status :=
  Some (mkStatus c msg []).

(** [func (s *Status) Err() error]: nil for code OK (and for a nil status),
    a [*status.Error] holding the status otherwise. *)
Definition Err (s : option Status) : option error :=
  match s with
  | Some st => if (st_code st =? codes.OK)%N then None else Some (statusError st)
  | None => None
  end.

(** [status.Error(c, msg)] is [New(c, msg).Err()]. *)
Definition Error (c : codes.Code) (msg : string) : option error :=
  Err (New c msg).

(** The method [GRPCStatus() *Status] of the error's type, when it has
    one. *)
Definition GRPCStatusMethod (err : error) : option (option Status) :=
  match err with
  | statusError s => Some (Some s)
  | dynError _ _ g _ _ => g
  | _ => None
  end.

(** [status.FromError] (v1.50.0: a type assertion on the error itself, no
    unwrapping). *)
Definition FromError (err : option error) : option Status * bool :=
  match err with
  | None => (None, true)
  | Some e =>
      match GRPCStatusMethod e with
      | Some s => (s, true)
      | None => (New codes.Unknown (err_Error e), false)
      end
  end.

(** [status.FromContextError]. *)
Definition FromContextError (err : option error) : option Status :=
  match err with
  | None => None
  | Some e =>
      if errors.Is e tDeadlineExceeded then New codes.DeadlineExceeded (err_Error e)
      else if errors.Is e tCanceled then New codes.Canceled (err_Error e)
      else New codes.Unknown (err_Error e)
  end.

(** The loop of [WithDetails]: marshal each detail and append it, stopping
    at the first one that fails. *)
Fixpoint appendDetails (acc : list Any) (details : list Message) : list Any + error :=
  match details with
  | [] => inl acc
  | validMsg u v :: rest => appendDetails (acc ++ [(u, v)])%list rest
  | invalidMsg reason :: _ => inr (errors.New reason)
  end.

(** The method [WithDetails] of a status pointer: it returns a new status
    with the details appended (the receiver is not changed) or an error. *)
Definition WithDetails (s : option Status) (details : list Message)
  : option Status * option error :=
  match s with
  | Some st =>
      if (st_code st =? codes.OK)%N
      then (None, Some (errors.New "no error details for status with code OK"))
      else match appendDetails (st_details st) details with
           | inl ds => (Some (mkStatus (st_code st) (st_message st) ds), None)
           | inr e => (None, Some e)
           end
  | None => (None, Some (errors.New "no error details for status with code OK"))
  end.

(** [status.Convert] and [status.Code]. *)
Definition Convert (err : option error) : option Status :=
  fst (FromError err).

Definition Code (err : option error) : codes.Code :=
  match err with
  | None => codes.OK
  | Some _ => Status_Code (Convert err)
  end.
End status.

(** ** Effects

    A computation reads and updates a state [S]; [None] is a run-time panic
    (a method call on a nil interface value). *)
Definition M (S A : Type) : Type := S -> option (A * S).

Definition ret {S A} (a : A) : M S A := fun s => Some (a, s).

Definition bind {S A B} (m : M S A) (k : A -> M S B) : M S B :=
  fun s =>
    match m s with
    | Some (a, s') => k a s'
    | None => None
    end.

Definition panic {S A} : M S A := fun _ => None.

Notation "x <- m ;; k" := (bind m (fun x => k))
  (at level 61, m at next level, right associativity).
Notation "' pat <- m ;; k" := (bind m (fun x => match x with pat => k end))
  (at level 61, pat pattern, m at next level, right associativity).
Notation "m ;; k" := (bind m (fun _ => k))
  (at level 61, right associativity).

(** ** Package logger *)
Module logger.
(** [type LoggerBackend int]. *)
Definition LoggerBackend := Z.
Definition LoggerBackendZap : LoggerBackend := 0%Z.
Definition LoggerBackendLogrus : LoggerBackend := 1%Z.

Definition debugLvl := "debug".
Definition infoLvl := "info".
Definition warnLvl := "warn".
Definition errorLvl := "error".
Definition fatalLvl := "fatal".

Definition errInvalidLoggerInstance : error := errors.New "invalid logger instance".

(** The values of type [interface{}] this program stores in [Fields]. *)
Inductive value : Type :=
| vError (e : error)
| vString (s : string).

(** [type Fields map[string]interface{}], as the list of its bindings. *)
Definition Fields := list (string * value).

Record Configuration : Type := {
  EnableConsole : bool;
  ConsoleJSONFormat : bool;
  ConsoleLevel : string;
  EnableFile : bool;
  FileJSONFormat : bool;
  FileLevel : string;
  FileLocation : string
}.

(** A logger object built by a backend.  [addr] is where it lives: two
    loggers are the same instance exactly when their addresses agree.
    [scope] holds the fields attached by [WithFields]. *)
Record Instance : Type := {
  addr : nat;
  kind : LoggerBackend;
  conf : Configuration;
  scope : Fields
}.

(** A value of interface type [Logger]: nil or an instance. *)
Definition Logger := option Instance.

(** A call of a level method on a logger, as handed to its backend. *)
Record Entry : Type := {
  on : Instance;
  level : string;
  message : string
}.

(** The package: the global [log], the [sync.Once] cell [once] (true once
    it has fired), the next free address, and the entries logged so far. *)
Record Pkg : Type := {
  log : Logger;
  once : bool;
  next : nat;
  entries : list Entry
}.

Definition set_log (l : Logger) : M Pkg unit :=
  fun p => Some (tt, {| log := l; once := once p; next := next p; entries := entries p |}).

Definition get_log : M Pkg Logger :=
  fun p => Some (log p, p).

(** [once.Do(f)]: [f] runs only if the cell has not fired, and the cell has
    fired when [Do] returns.  [f] assigns the captured variable whose value
    before the call is [v]; the value after the call is returned. *)
Definition once_Do {A} (v : A) (f : M Pkg A) : M Pkg A :=
  fun p =>
    if once p then Some (v, p)
    else match f p with
         | Some (a, p') =>
             Some (a, {| log := log p'; once := true; next := next p'; entries := entries p' |})
         | None => None
         end.

Section Backends.
(** The two backend constructors, [newZapLogger] (logger/zap.go) and
    [newLogrusLogger] (logger/logrus.go), live in files that are not
    embedded here.  A constructor receives the configuration and the address
    of the object it allocates, and returns a [Logger] and an error. *)
Variable newZapLogger : Configuration -> nat -> Logger * option error.
Variable newLogrusLogger : Configuration -> nat -> Logger * option error.

(** Run a constructor at the next free address. *)
Definition construct (mk : Configuration -> nat -> Logger * option error)
           (config : Configuration) : M Pkg (Logger * option error) :=
  fun p => Some (mk config (next p),
                 {| log := log p; once := once p; next := S (next p); entries := entries p |}).

Definition DefaultLogger : M Pkg Logger :=
  let cfg := {| EnableConsole := true;
                ConsoleJSONFormat := false;
                ConsoleLevel := "info";
                EnableFile := false;
                FileJSONFormat := false;
                FileLevel := "";
                FileLocation := "" |} in
  '(logger, _) <- construct newZapLogger cfg ;;
  ret logger.

Definition NewLogger (config : Configuration) (backend : LoggerBackend)
  : M Pkg (Logger * option error) :=
  if (backend =? LoggerBackendZap)%Z then construct newZapLogger config
  else if (backend =? LoggerBackendLogrus)%Z then construct newLogrusLogger config
  else ret (None, Some errInvalidLoggerInstance).

Definition InitLogger (config : Configuration) (backend : LoggerBackend)
  : M Pkg (Logger * option error) :=
  err <- once_Do None
           (if (backend =? LoggerBackendZap)%Z then
              '(l, e) <- NewLogger config backend ;;
              set_log l ;;
              ret e
            else if (backend =? LoggerBackendLogrus)%Z then
              '(l, e) <- NewLogger config backend ;;
              set_log l ;;
              ret e
            else ret (Some errInvalidLoggerInstance)) ;;
  l <- get_log ;;
  ret (l, err).

(** The package at start-up: [var log = DefaultLogger()], [once] not
    fired, nothing logged. *)
Definition start : option Pkg :=
  match (l <- DefaultLogger ;; set_log l)
          {| log := None; once := false; next := 0; entries := [] |} with
  | Some (_, p) => Some p
  | None => None
  end.
End Backends.

(** Modelled from the spec: the method [WithFields] of the backend loggers
    (logger/zap.go and logger/logrus.go are not embedded here).  It returns a
    new logger scoped with the additional fields and leaves the receiver as
    it is. *)
Definition Instance_WithFields (l : Instance) (keyValues : Fields) : M Pkg Logger :=
  fun p =>
    Some (Some {| addr := next p; kind := kind l; conf := conf l;
                  scope := (scope l ++ keyValues)%list |},
          {| log := log p; once := once p; next := S (next p); entries := entries p |}).

(** Modelled from the spec: the level methods ([Warnf], [Error], ...) of the
    backend loggers (logger/zap.go and logger/logrus.go are not embedded
    here).  A level method hands one entry, with the logger's scope, to the
    backend. *)
Definition emit (l : Instance) (lvl msg : string) : M Pkg unit :=
  fun p =>
    Some (tt, {| log := log p; once := once p; next := next p;
                 entries := (entries p ++ [ {| on := l; level := lvl; message := msg |} ])%list |}).

(** Calls through the interface: a nil [Logger] panics. *)
Definition Logger_WithFields (l : Logger) (keyValues : Fields) : M Pkg Logger :=
  match l with
  | Some i => Instance_WithFields i keyValues
  | None => panic
  end.

Definition Logger_Warnf (l : Logger) (format : string) : M Pkg unit :=
  match l with
  | Some i => emit i warnLvl format
  | None => panic
  end.

Definition Logger_Error (l : Logger) (msg : string) : M Pkg unit :=
  match l with
  | Some i => emit i errorLvl msg
  | None => panic
  end.

(** [func WithFields(keyValues Fields) Logger { return log.WithFields(keyValues) }]. *)
Definition WithFields (keyValues : Fields) : M Pkg Logger :=
  l <- get_log ;;
  Logger_WithFields l keyValues.
End logger.

(** ** Package grpcerror *)
Module grpcerror.
Import logger.

Record grpcErrorWrapper : Type := {
  development : bool;
  internalServerErr : option error
}.

Definition unwrapErr (err : error) : error :=
  match errors.Unwrap err with
  | Some wrappedErr => wrappedErr
  | None => err
  end.

(** The method [Details() []proto.Message] of the error's type, when it has
    one. *)
Definition DetailsMethod (err : error) : option (list Message) :=
  match err with
  | dynError _ _ _ d _ => d
  | _ => None
  end.

(** The block of [GRPCError] that attaches details: when the unwrapped
    error has a [Details] method, [stt] is replaced by
    [stt.WithDetails(de.Details()...)] unless that call fails. *)
Definition attachDetails (stt : option Status) (wrappedErr : error) : option Status :=
  match DetailsMethod wrappedErr with
  | Some details =>
      match status.WithDetails stt details with
      | (s, None) => s
      | (_, Some _) => stt
      end
  | None => stt
  end.

(** [GRPCError] is given a non-nil error (the interceptor calls it under
    [err != nil]); its result may be nil.  The [ok] tested last is the one
    bound by [status.FromError]: the [ok] of the type assertion is local to
    its [if]. *)
Definition GRPCError (w : grpcErrorWrapper) (err : error) : M Pkg (option error) :=
  let wrappedErr := unwrapErr err in
  if is_target wrappedErr tCanceled || is_target wrappedErr tDeadlineExceeded then
    ret (status.Err (status.FromContextError (Some wrappedErr)))
  else
    let '(stt, ok) := status.FromError (Some wrappedErr) in
    if negb ok then
      ret (status.Err (status.FromContextError (Some wrappedErr)))
    else
      let stt := attachDetails stt wrappedErr in
      if development w then
        l <- WithFields [("error", vError err)] ;;
        Logger_Warnf l "getting error..." ;;
        ret (status.Error (Status_Code stt) (err_Error err))
      else if ok then
        ret (status.Err stt)
      else
        l <- WithFields [("error", vError err)] ;;
        Logger_Error l "unexpected error..." ;;
        ret (internalServerErr w).

Section Interceptor.
(** [context.Context], the request and response payloads and
    [*grpc.UnaryServerInfo] are opaque to the interceptor.  A response of
    type [interface{}] may be nil. *)
Context {Ctx Req Res Info : Type}.

Definition UnaryHandler := Ctx -> Req -> M Pkg (option Res * option error).

Definition UnaryServerInterceptor (development : bool) (internalServerErr : option error)
  : Ctx -> Req -> Info -> UnaryHandler -> M Pkg (option Res * option error) :=
  let w := {| development := development; internalServerErr := internalServerErr |} in
  fun ctx req info handler =>
    '(res, err) <- handler ctx req ;;
    match err with
    | Some err => e <- GRPCError w err ;; ret (None, e)
    | None => ret (res, None)
    end.
End Interceptor.
End grpcerror.

(** ** Package appmode *)
Module appmode.
(** [type AppMode int]. *)
Definition AppMode := Z.
Definition Development : AppMode := 0%Z.
Definition Production : AppMode := 1%Z.

Section Generated.
(** [AppModeString] is generated by enumer (the go:generate line above the
    type) into a file that is not embedded here: it parses a mode name into
    a mode, or fails. *)
Variable AppModeString : string -> AppMode * option error.

Definition GetAppMode (appMode : string) : AppMode :=
  let '(mode, err) := AppModeString appMode in
  match err with
  | Some _ => Development
  | None => mode
  end.
End Generated.
End appmode.

(** ** Instances of the code that is not part of the sources *)

(** Modelled from the spec: the backend constructor [newZapLogger]
    (logger/zap.go is not embedded here).  It maps the configuration onto a
    logger object of the zap backend; the default configuration yields the
    eagerly created global logger. *)
Definition specZapLogger (config : logger.Configuration) (a : nat)
  : logger.Logger * option error :=
  (Some {| logger.addr := a; logger.kind := logger.LoggerBackendZap;
           logger.conf := config; logger.scope := [] |}, None).

(** Modelled from the spec: the backend constructor [newLogrusLogger]
    (logger/logrus.go is not embedded here).  It maps the configuration onto
    a logger object of the logrus backend. *)
Definition specLogrusLogger (config : logger.Configuration) (a : nat)
  : logger.Logger * option error :=
  (Some {| logger.addr := a; logger.kind := logger.LoggerBackendLogrus;
           logger.conf := config; logger.scope := [] |}, None).

(** Modelled from the spec: [AppModeString] (appmode_enumer.go, generated by
    enumer, is not embedded here).  The spec names the two
    deployment modes; the parser recognises their names as declared and in
    lower case, and fails on every other string. *)
Definition specAppModeString (s : string) : appmode.AppMode * option error :=
  if (s =? "Development") || (s =? "development") then (appmode.Development, None)
  else if (s =? "Production") || (s =? "production") then (appmode.Production, None)
  else (0%Z, Some (errors.New (s ++ " does not belong to AppMode values"))).

(** A configuration used in examples. *)
Definition jsonConsole : logger.Configuration :=
  {| logger.EnableConsole := true;
     logger.ConsoleJSONFormat := true;
     logger.ConsoleLevel := "debug";
     logger.EnableFile := false;
     logger.FileJSONFormat := false;
     logger.FileLevel := "";
     logger.FileLocation := "" |}.

(** Two errors that agree at their own level: the same context sentinel or
    none, the same text, the same [GRPCStatus] and [Details] methods.  What
    they wrap, if anything, is left open. *)
Definition same_level (e1 e2 : error) : Prop :=
  (forall t, is_target e1 t = is_target e2 t) /\
  err_Error e1 = err_Error e2 /\
  status.GRPCStatusMethod e1 = status.GRPCStatusMethod e2 /\
  grpcerror.DetailsMethod e1 = grpcerror.DetailsMethod e2.

(** [fmt.Errorf("handler: %w", fmt.Errorf("db: %w", errors.New("context canceled")))]:
    the texts of [twiceWrappedCanceled] below, over a plain error. *)
Definition twiceWrappedPlain : error :=
  fmt_Errorf_w "handler: db: context canceled"
               (fmt_Errorf_w "db: context canceled" (errors.New "context canceled")).

(** The message a client reads off a returned error:
    [status.Convert(err).Message()]. *)
Definition message_of (err : option error) : string :=
  Status_Message (status.Convert err).

(** The entry [l.Warnf] / [l.Error] hands over, and the loggers derived from
    the global one by [WithFields]. *)
Definition derived (l : logger.Instance) (a : nat) (kv : logger.Fields) : logger.Instance :=
  {| logger.addr := a; logger.kind := logger.kind l; logger.conf := logger.conf l;
     logger.scope := (logger.scope l ++ kv)%list |}.

(** The package after one [WithFields] on the global logger [l] followed by
    one entry written through the derived logger. *)
Definition logged (p : logger.Pkg) (l : logger.Instance) (kv : logger.Fields)
           (lvl msg : string) : logger.Pkg :=
  {| logger.log := logger.log p; logger.once := logger.once p;
     logger.next := S (logger.next p);
     logger.entries :=
       (logger.entries p
          ++ [ {| logger.on := derived l (logger.next p) kv;
                  logger.level := lvl; logger.message := msg |} ])%list |}.

(** Errors and interceptor configurations used in examples. *)
Definition catchAll : option error :=
  status.Error codes.Internal "internal server error".

Definition prodW : grpcerror.grpcErrorWrapper :=
  {| grpcerror.development := false; grpcerror.internalServerErr := catchAll |}.

Definition devW : grpcerror.grpcErrorWrapper :=
  {| grpcerror.development := true; grpcerror.internalServerErr := catchAll |}.

(** [errors.New("dial tcp 10.0.0.5:5432: connection refused")]. *)
Definition dialErr : error := errors.New "dial tcp 10.0.0.5:5432: connection refused".

(** An error of a type with a method [GRPCStatus] that returns a nil status. *)
Definition nilStatusErr : error :=
  dynError "quota exceeded" None (Some None) None None.

(** [status.Error(codes.NotFound, "no such user")] and the same error wrapped
    once with [fmt.Errorf("lookup: %w", ...)]. *)
Definition notFound : Status := mkStatus codes.NotFound "no such user" [].

Definition wrappedNotFound : error :=
  fmt_Errorf_w "lookup: rpc error: code = NotFound desc = no such user"
               (statusError notFound).

(** [fmt.Errorf("handler: %w", fmt.Errorf("db: %w", context.Canceled))]. *)
Definition twiceWrappedCanceled : error :=
  fmt_Errorf_w "handler: db: context canceled"
               (fmt_Errorf_w "db: context canceled" context.Canceled).

(** The package state with [once] fired. *)
Definition fired (p : logger.Pkg) : logger.Pkg :=
  {| logger.log := logger.log p; logger.once := true;
     logger.next := logger.next p; logger.entries := logger.entries p |}.

(** The configuration [DefaultLogger] builds, the logger the zap constructor
    above makes of it at address 0, and the package state at start-up with
    the backends above. *)
Definition defaultConfig : logger.Configuration :=
  {| logger.EnableConsole := true;
     logger.ConsoleJSONFormat := false;
     logger.ConsoleLevel := "info";
     logger.EnableFile := false;
     logger.FileJSONFormat := false;
     logger.FileLevel := "";
     logger.FileLocation := "" |}.

Definition defaultLogger : logger.Instance :=
  {| logger.addr := 0; logger.kind := logger.LoggerBackendZap;
     logger.conf := defaultConfig; logger.scope := [] |}.

Definition specStart : logger.Pkg :=
  {| logger.log := Some defaultLogger;
     logger.once := false;
     logger.next := 1;
     logger.entries := [] |}.

(** ** Package client *)
Module client.
(** [credentials.TransportCredentials] and [grpc.DialOption] values: the ones
    [NewClient] builds itself, and any other, told apart by a name. *)
Inductive Credentials : Type :=
| insecureCredentials
| otherCredentials (name : string).

Inductive DialOption : Type :=
| WithTransportCredentials (creds : Credentials)
| otherOption (name : string).

Section Dial.
(** [Conn] is what a [*grpc.ClientConn] points to (the pointer may be nil),
    [T] the client type the caller picks and [zero] its zero value.
    [Dial] is the outcome of the one call of [grpc.Dial]. *)
Context {Conn T : Type}.
Variable zero : T.
Variable Dial : string -> list DialOption -> option Conn * option error.

(** The close function returned is nil or the method value [conn.Close],
    kept as the connection it is bound to. *)
Definition CloseFunc : Type := option Conn.

Definition NewClient (serverAddr : string) (newClientFunc : option Conn -> T)
           (opts : list DialOption) : T * option CloseFunc * option error :=
  let opts :=
    if (length opts =? 0)%nat
    then [WithTransportCredentials insecureCredentials]
    else opts in
  let client := zero in
  let '(conn, err) := Dial serverAddr opts in
  match err with
  | Some _ => (client, None, err)
  | None =>
      let client := newClientFunc conn in
      (client, Some conn, err)
  end.
End Dial.
End client.

(** A run of [InitLogger] calls, one after the other, with their results. *)
Fixpoint InitLogger_calls
         (newZapLogger newLogrusLogger : logger.Configuration -> nat -> logger.Logger * option error)
         (calls : list (logger.Configuration * logger.LoggerBackend))
  : M logger.Pkg (list (logger.Logger * option error)) :=
  match calls with
  | [] => ret []
  | (config, backend) :: rest =>
      r <- logger.InitLogger newZapLogger newLogrusLogger config backend ;;
      rs <- InitLogger_calls newZapLogger newLogrusLogger rest ;;
      ret (r :: rs)
  end.

(** A logrus constructor that rejects a console level outside the level
    names, used in examples of a construction that fails. *)
Definition strictLogrusLogger (config : logger.Configuration) (a : nat)
  : logger.Logger * option error :=
  if existsb (String.eqb (logger.ConsoleLevel config))
             ["debug"; "info"; "warn"; "error"; "fatal"; "panic"]
  then specLogrusLogger config a
  else (None, Some (errors.New ("not a valid logrus Level: " ++ logger.ConsoleLevel config))).

(** A configuration with a misspelt console level. *)
Definition verboseConsole : logger.Configuration :=
  {| logger.EnableConsole := true;
     logger.ConsoleJSONFormat := false;
     logger.ConsoleLevel := "verbose";
     logger.EnableFile := false;
     logger.FileJSONFormat := false;
     logger.FileLevel := "";
     logger.FileLocation := "" |}.

(** The package with no global logger, as a failed construction leaves it. *)
Definition noLogger : logger.Pkg :=
  {| logger.log := None; logger.once := true; logger.next := 2; logger.entries := [] |}.

(** An error of a type with [GRPCStatus] and [Details] methods: a status
    InvalidArgument with the given details. *)
Definition badRequest (details : list Message) : error :=
  dynError "bad request" None
           (Some (Some (mkStatus codes.InvalidArgument "bad request" [])))
           (Some details) None.

(** The marshalled payloads as messages. *)
Definition asMessages (anys : list Any) : list Message :=
  map (fun a => validMsg (fst a) (snd a)) anys.

(** An outcome of [grpc.Dial] used in examples: the address "down:1" cannot
    be dialled, any other address yields a connection named after the
    address and the number of options. *)
Definition sampleDial (serverAddr : string) (opts : list client.DialOption)
  : option (string * nat) * option error :=
  if (serverAddr =? "down:1")%string
  then (None, Some (errors.New "context deadline exceeded"))
  else (Some (serverAddr, length opts), None).

(** * Properties *)

(** ** Package appmode *)
Section AppMode.
Variable AppModeString : string -> appmode.AppMode * option error.

(** C10: a string that [AppModeString] rejects yields [Development]; a
    string it recognises yields the mode it parsed to. *)
Theorem GetAppMode_default_Development (appMode : string) :
  (snd (AppModeString appMode) <> None ->
     appmode.GetAppMode AppModeString appMode = appmode.Development) /\
  (forall mode, AppModeString appMode = (mode, None) ->
     appmode.GetAppMode AppModeString appMode = mode).
Proof.
  unfold appmode.GetAppMode.
  destruct (AppModeString appMode) as [mode [e|]]; cbn; split.
  - reflexivity.
  - intros m H; discriminate H.
  - intros H; now elim H.
  - intros m H; now inversion H.
Qed.
End AppMode.

Lemma specStart_is_start : logger.start specZapLogger = Some specStart.
Proof. reflexivity. Qed.

Example wrappedNotFound_text :
  err_Error wrappedNotFound = "lookup: " ++ err_Error (statusError notFound).
Proof. reflexivity. Qed.

Example Code_String_unnamed : codes.String 99%N = "Code(99)".
Proof. reflexivity. Qed.

Example GetAppMode_staging :
  appmode.GetAppMode specAppModeString "staging" = appmode.Development.
Proof. reflexivity. Qed.

Example GetAppMode_production :
  appmode.GetAppMode specAppModeString "production" = appmode.Production.
Proof. reflexivity. Qed.

Lemma GetAppMode_default_Development_witness :
  (snd (specAppModeString "staging") <> None /\
   appmode.GetAppMode specAppModeString "staging" = appmode.Development) /\
  (specAppModeString "Production" = (appmode.Production, None) /\
   appmode.GetAppMode specAppModeString "Production" = appmode.Production).
Proof.
  split; split.
  - discriminate.
  - apply (proj1 (GetAppMode_default_Development specAppModeString "staging")).
    vm_compute; discriminate.
  - reflexivity.
  - apply (proj2 (GetAppMode_default_Development specAppModeString "Production")).
    reflexivity.
Defined.

(** ** Package logger *)
Section Logger.
Variable newZapLogger : logger.Configuration -> nat -> logger.Logger * option error.
Variable newLogrusLogger : logger.Configuration -> nat -> logger.Logger * option error.

Let InitLogger := logger.InitLogger newZapLogger newLogrusLogger.
Let NewLogger := logger.NewLogger newZapLogger newLogrusLogger.

(** Once the cell has fired, [InitLogger] reads the global logger and
    changes nothing, whatever its arguments. *)
Lemma InitLogger_after_once config backend p :
  logger.once p = true ->
  InitLogger config backend p = Some ((logger.log p, None), p).
Proof.
  intros Hp.
  unfold InitLogger, logger.InitLogger, bind, logger.once_Do.
  rewrite Hp. reflexivity.
Qed.

(** A call of [InitLogger] returns, leaves the cell fired, and returns the
    global logger as it is after the call. *)
Lemma InitLogger_returns config backend p :
  exists l e p',
    InitLogger config backend p = Some ((l, e), p') /\
    logger.once p' = true /\ logger.log p' = l.
Proof.
  unfold InitLogger, logger.InitLogger, logger.NewLogger, logger.construct,
    logger.set_log, logger.get_log, logger.once_Do, bind, ret.
  destruct (logger.once p) eqn:Hp.
  - exists (logger.log p), None, p. auto.
  - destruct (backend =? logger.LoggerBackendZap)%Z.
    + destruct (newZapLogger config (logger.next p)) as [l e]; cbn.
      repeat eexists.
    + destruct (backend =? logger.LoggerBackendLogrus)%Z.
      * destruct (newLogrusLogger config (logger.next p)) as [l e]; cbn.
        repeat eexists.
      * cbn. repeat eexists.
Qed.

(** [NewLogger] never touches the global logger or the cell. *)
Lemma NewLogger_keeps_global config backend p :
  exists r p',
    NewLogger config backend p = Some (r, p') /\
    logger.log p' = logger.log p /\ logger.once p' = logger.once p.
Proof.
  unfold NewLogger, logger.NewLogger, logger.construct, ret.
  destruct (backend =? logger.LoggerBackendZap)%Z; [repeat eexists|].
  destruct (backend =? logger.LoggerBackendLogrus)%Z; repeat eexists.
Qed.

(** C2, as the code has it: a first call of [InitLogger] with a backend
    selector that is neither zap nor logrus returns the error
    "invalid logger instance" together with the global logger as it was
    before the call (at start-up the default logger), which it leaves in
    place; only the once-cell changes. *)
Theorem InitLogger_unknown_backend_keeps_global config backend p :
  logger.once p = false ->
  backend <> logger.LoggerBackendZap ->
  backend <> logger.LoggerBackendLogrus ->
  InitLogger config backend p
    = Some ((logger.log p, Some logger.errInvalidLoggerInstance), fired p) /\
  err_Error logger.errInvalidLoggerInstance = "invalid logger instance".
Proof.
  intros Hp Hz Hl. split; [|reflexivity].
  unfold InitLogger, logger.InitLogger, logger.once_Do, bind.
  rewrite Hp.
  apply Z.eqb_neq in Hz, Hl. rewrite Hz, Hl.
  reflexivity.
Qed.

(** C3: when a first call of [InitLogger] has succeeded, every later call,
    with any configuration and any backend selector, returns the very
    logger instance the first call returned, with no error, and changes
    nothing.  A later call is one made in a state whose global logger and
    cell are as the first call left them. *)
Theorem InitLogger_idempotent_singleton config backend p l p1 :
  logger.once p = false ->
  InitLogger config backend p = Some ((l, None), p1) ->
  forall config' backend' p2,
    logger.log p2 = logger.log p1 ->
    logger.once p2 = logger.once p1 ->
    InitLogger config' backend' p2 = Some ((l, None), p2).
Proof.
  intros _ H1 config' backend' p2 Hlog Honce.
  destruct (InitLogger_returns config backend p) as (l0 & e0 & p0 & Hr & Ho & Hl).
  rewrite Hr in H1.
  assert (l0 = l /\ p0 = p1) as [-> ->] by (split; congruence).
  rewrite InitLogger_after_once by congruence.
  rewrite Hlog, Hl. reflexivity.
Qed.
End Logger.

(** The claim of a nil logger fails at start-up: a first call with backend
    selector 7 returns the error together with the default logger, which is
    not nil. *)
Lemma InitLogger_unknown_backend_logger_not_nil :
  logger.InitLogger specZapLogger specLogrusLogger jsonConsole 7%Z specStart
    = Some ((logger.log specStart, Some logger.errInvalidLoggerInstance), fired specStart) /\
  logger.log specStart <> None.
Proof. split; [reflexivity | discriminate]. Qed.

Lemma InitLogger_unknown_backend_keeps_global_witness :
  logger.once specStart = false /\
  7%Z <> logger.LoggerBackendZap /\
  7%Z <> logger.LoggerBackendLogrus /\
  logger.InitLogger specZapLogger specLogrusLogger jsonConsole 7%Z specStart
    = Some ((logger.log specStart, Some logger.errInvalidLoggerInstance), fired specStart).
Proof.
  split; [reflexivity|]. split; [discriminate|]. split; [discriminate|].
  apply (InitLogger_unknown_backend_keeps_global
           specZapLogger specLogrusLogger jsonConsole 7%Z specStart);
    [reflexivity | discriminate | discriminate].
Defined.

(** The logger a first call with the logrus backend builds at start-up, and
    the package after that call. *)
Example InitLogger_first_logrus :
  logger.InitLogger specZapLogger specLogrusLogger jsonConsole logger.LoggerBackendLogrus
                    specStart
  = Some ((fst (specLogrusLogger jsonConsole 1), None),
          {| logger.log := fst (specLogrusLogger jsonConsole 1); logger.once := true;
             logger.next := 2; logger.entries := [] |}).
Proof. reflexivity. Qed.

Lemma InitLogger_idempotent_singleton_witness :
  let p1 := {| logger.log := fst (specLogrusLogger jsonConsole 1); logger.once := true;
               logger.next := 2; logger.entries := [] |} in
  logger.once specStart = false /\
  logger.InitLogger specZapLogger specLogrusLogger jsonConsole logger.LoggerBackendLogrus
                    specStart
    = Some ((fst (specLogrusLogger jsonConsole 1), None), p1) /\
  logger.InitLogger specZapLogger specLogrusLogger
                    (logger.Build_Configuration false false "" false false "" "") 7%Z p1
    = Some ((fst (specLogrusLogger jsonConsole 1), None), p1).
Proof.
  intros p1. split; [reflexivity|]. split; [reflexivity|].
  apply (InitLogger_idempotent_singleton
           specZapLogger specLogrusLogger jsonConsole logger.LoggerBackendLogrus
           specStart (fst (specLogrusLogger jsonConsole 1)) p1);
    reflexivity.
Defined.

(** ** Package grpcerror *)
Section GRPCError.
Import grpcerror.

(** One turn of the loop of [errors.Is]: compare, ask the [Is] method,
    unwrap and go on. *)
Lemma Is_step e t :
  errors.Is e t
  = is_target e t
    || match errors.IsMethod e with Some f => f t | None => false end
    || match errors.Unwrap e with Some c => errors.Is c t | None => false end.
Proof.
  destruct e as [| | s | text [[c|]|] g d [f|]]; cbn;
    rewrite ?orb_false_r; reflexivity.
Qed.

Lemma FromError_ok e st :
  status.FromError (Some e) = (st, true) -> status.GRPCStatusMethod e = Some st.
Proof.
  unfold status.FromError.
  destruct (status.GRPCStatusMethod e); intros H; inversion H; reflexivity.
Qed.

Lemma FromError_not_ok e :
  snd (status.FromError (Some e)) = false ->
  status.FromError (Some e) = (status.New codes.Unknown (err_Error e), false).
Proof.
  unfold status.FromError.
  destruct (status.GRPCStatusMethod e); cbn; [discriminate | reflexivity].
Qed.

(** An error that carries a status is none of the context sentinels. *)
Lemma GRPCStatus_not_sentinel e st t :
  status.GRPCStatusMethod e = Some st -> is_target e t = false.
Proof. destruct e, t; cbn; intros H; try discriminate H; reflexivity. Qed.

(** Attaching details keeps the code. *)
Lemma WithDetails_Code stt details s :
  status.WithDetails stt details = (s, None) -> Status_Code s = Status_Code stt.
Proof.
  unfold status.WithDetails.
  destruct stt as [st|]; [|discriminate].
  destruct (st_code st =? codes.OK)%N; [discriminate|].
  destruct (status.appendDetails (st_details st) details);
    intros H; inversion H; reflexivity.
Qed.

Lemma attachDetails_Code stt wrappedErr :
  Status_Code (attachDetails stt wrappedErr) = Status_Code stt.
Proof.
  unfold attachDetails.
  destruct (DetailsMethod wrappedErr) as [details|]; [|reflexivity].
  destruct (status.WithDetails stt details) as [s [e|]] eqn:E; [reflexivity|].
  exact (WithDetails_Code _ _ _ E).
Qed.

(** The code read off [status.Error c msg]. *)
Lemma Code_status_Error c msg : status.Code (status.Error c msg) = c.
Proof.
  unfold status.Error, status.Err, status.New; cbn.
  destruct (c =? codes.OK)%N eqn:E; cbn; [|reflexivity].
  apply N.eqb_eq in E. now subst.
Qed.

Lemma Code_Err stt : status.Code (status.Err stt) = Status_Code stt.
Proof.
  destruct stt as [st|]; cbn; [|reflexivity].
  destruct (st_code st =? codes.OK)%N eqn:E; cbn; [|reflexivity].
  apply N.eqb_eq in E. now rewrite E.
Qed.

(** [GRPCError] on an error that fails classification: both modes take the
    early return. *)
Lemma GRPCError_unclassified w err p :
  snd (status.FromError (Some (unwrapErr err))) = false ->
  GRPCError w err p
    = Some (status.Err (status.FromContextError (Some (unwrapErr err))), p).
Proof.
  intros H. unfold GRPCError.
  destruct (is_target (unwrapErr err) tCanceled
            || is_target (unwrapErr err) tDeadlineExceeded); [reflexivity|].
  rewrite (FromError_not_ok _ H). reflexivity.
Qed.

(** [GRPCError] on an error that classifies. *)
Lemma GRPCError_classified w err st p :
  status.FromError (Some (unwrapErr err)) = (st, true) ->
  GRPCError w err p
    = if development w then
        (l <- logger.WithFields [("error", logger.vError err)] ;;
         logger.Logger_Warnf l "getting error..." ;;
         ret (status.Error (Status_Code st) (err_Error err))) p
      else Some (status.Err (attachDetails st (unwrapErr err)), p).
Proof.
  intros H. unfold GRPCError.
  pose proof (FromError_ok _ _ H) as Hg.
  rewrite !(GRPCStatus_not_sentinel _ _ _ Hg), H. cbn [orb negb].
  rewrite attachDetails_Code.
  destruct (development w); reflexivity.
Qed.
End GRPCError.

Import grpcerror.

(** C1: in production mode with catch-all [status.Error(codes.Internal,
    "internal server error")], the unclassifiable error
    [errors.New("dial tcp 10.0.0.5:5432: connection refused")] comes back as a
    status of code Unknown whose message is the original text, not the
    catch-all's message; nothing is logged. *)
Theorem GRPCError_production_unclassified_leaks :
  GRPCError prodW dialErr specStart
    = Some (Some (statusError
                    (mkStatus codes.Unknown "dial tcp 10.0.0.5:5432: connection refused" [])),
            specStart) /\
  message_of (Some (statusError
                      (mkStatus codes.Unknown "dial tcp 10.0.0.5:5432: connection refused" [])))
    = err_Error dialErr /\
  message_of (internalServerErr prodW) = "internal server error" /\
  snd (status.FromError (Some (unwrapErr dialErr))) = false.
Proof. repeat split. Qed.

(** C4: when the one-level unwrap of the error is [context.Canceled]
    (respectively [context.DeadlineExceeded]), [GRPCError] returns the status
    error of code Canceled with message "context canceled" (respectively
    DeadlineExceeded, "context deadline exceeded"), the conversion
    [status.FromContextError] makes of it.  The result is the same for every
    mode and every configured catch-all value, and the package is left as it
    was. *)
Theorem GRPCError_context_errors err :
  (unwrapErr err = context.Canceled ->
     forall w p,
       GRPCError w err p
         = Some (Some (statusError (mkStatus codes.Canceled "context canceled" [])), p)) /\
  (unwrapErr err = context.DeadlineExceeded ->
     forall w p,
       GRPCError w err p
         = Some (Some (statusError
                         (mkStatus codes.DeadlineExceeded "context deadline exceeded" [])), p)) /\
  (unwrapErr err = context.Canceled \/ unwrapErr err = context.DeadlineExceeded ->
     forall w p,
       GRPCError w err p
         = Some (status.Err (status.FromContextError (Some (unwrapErr err))), p)).
Proof.
  repeat split; intros H w p; unfold GRPCError.
  - rewrite H. reflexivity.
  - rewrite H. reflexivity.
  - destruct H as [H|H]; rewrite H; reflexivity.
Qed.

Lemma GRPCError_context_errors_witness :
  unwrapErr (fmt_Errorf_w "list users: context canceled" context.Canceled) = context.Canceled /\
  GRPCError prodW (fmt_Errorf_w "list users: context canceled" context.Canceled) specStart
    = Some (Some (statusError (mkStatus codes.Canceled "context canceled" [])), specStart) /\
  unwrapErr context.DeadlineExceeded = context.DeadlineExceeded /\
  GRPCError devW context.DeadlineExceeded specStart
    = Some (Some (statusError
                    (mkStatus codes.DeadlineExceeded "context deadline exceeded" [])),
            specStart).
Proof.
  split; [reflexivity|]. split.
  - apply (proj1 (GRPCError_context_errors
                    (fmt_Errorf_w "list users: context canceled" context.Canceled))).
    reflexivity.
  - split; [reflexivity|].
    apply (proj1 (proj2 (GRPCError_context_errors context.DeadlineExceeded))).
    reflexivity.
Defined.

(** C5: when the one-level unwrap of the error is neither context sentinel
    and fails classification by [status.FromError], [GRPCError] returns, in
    either mode and without logging, [status.FromContextError] of the
    unwrapped error turned into an error: a status error whose message is the
    unwrapped error's text and whose code is the one that conversion picks
    (DeadlineExceeded, Canceled or Unknown). *)
Theorem GRPCError_unclassified_context_conversion w err p :
  unwrapErr err <> context.Canceled ->
  unwrapErr err <> context.DeadlineExceeded ->
  snd (status.FromError (Some (unwrapErr err))) = false ->
  GRPCError w err p
    = Some (status.Err (status.FromContextError (Some (unwrapErr err))), p) /\
  exists c,
    In c [codes.DeadlineExceeded; codes.Canceled; codes.Unknown] /\
    status.Err (status.FromContextError (Some (unwrapErr err)))
      = Some (statusError (mkStatus c (err_Error (unwrapErr err)) [])).
Proof.
  intros _ _ H. split; [exact (GRPCError_unclassified w err p H)|].
  unfold status.FromContextError.
  destruct (errors.Is (unwrapErr err) tDeadlineExceeded).
  - exists codes.DeadlineExceeded. cbn. auto.
  - destruct (errors.Is (unwrapErr err) tCanceled).
    + exists codes.Canceled. cbn. auto.
    + exists codes.Unknown. cbn. auto.
Qed.

Lemma GRPCError_unclassified_context_conversion_witness :
  unwrapErr dialErr <> context.Canceled /\
  unwrapErr dialErr <> context.DeadlineExceeded /\
  snd (status.FromError (Some (unwrapErr dialErr))) = false /\
  GRPCError devW dialErr specStart
    = Some (status.Err (status.FromContextError (Some (unwrapErr dialErr))), specStart).
Proof.
  split; [discriminate|]. split; [discriminate|]. split; [reflexivity|].
  apply (GRPCError_unclassified_context_conversion devW dialErr specStart);
    [discriminate | discriminate | reflexivity].
Defined.

(** The claim for development mode fails on a classified error whose status
    has no error code: for an error whose [GRPCStatus] method returns a nil
    status, [GRPCError] logs the warning and returns nil, so no returned
    error carries the original text "quota exceeded". *)
Lemma GRPCError_development_nil_status :
  unwrapErr nilStatusErr <> context.Canceled /\
  unwrapErr nilStatusErr <> context.DeadlineExceeded /\
  GRPCError devW nilStatusErr specStart
    = Some (None,
            logged specStart defaultLogger [("error", logger.vError nilStatusErr)]
                   logger.warnLvl "getting error...") /\
  message_of None <> err_Error nilStatusErr.
Proof.
  split; [discriminate|]. split; [discriminate|]. split; [reflexivity | discriminate].
Qed.

(** The same claim also fails on every unclassifiable error that was
    wrapped: the early return hands back the text of the unwrapped error and
    logs nothing. *)
Example GRPCError_development_unclassified_wrapped :
  GRPCError devW (fmt_Errorf_w "load profile: boom" (errors.New "boom")) specStart
    = Some (Some (statusError (mkStatus codes.Unknown "boom" [])), specStart).
Proof. reflexivity. Qed.

(** C6, as the code has it: in development mode, when the one-level unwrap of
    the error classifies as a status-carrying error whose code is not OK and
    the global logger is set, [GRPCError] first hands one warning-level entry
    "getting error..." to a logger derived from the global one with the field
    error = the error as passed in, and then returns a status error with the
    classified code whose message is the rendered text of the error as passed
    in (before the unwrap). *)
Theorem GRPCError_development_classified w err st l p :
  development w = true ->
  status.FromError (Some (unwrapErr err)) = (st, true) ->
  Status_Code st <> codes.OK ->
  logger.log p = Some l ->
  GRPCError w err p
    = Some (Some (statusError (mkStatus (Status_Code st) (err_Error err) [])),
            logged p l [("error", logger.vError err)] logger.warnLvl "getting error...") /\
  message_of (Some (statusError (mkStatus (Status_Code st) (err_Error err) [])))
    = err_Error err.
Proof.
  intros Hdev Hst Hcode Hlog. split; [|reflexivity].
  rewrite (GRPCError_classified w err st p Hst), Hdev.
  unfold logger.WithFields, logger.get_log, bind. rewrite Hlog. cbn.
  unfold status.Error, status.Err, status.New, ret; cbn.
  apply N.eqb_neq in Hcode. rewrite Hcode. reflexivity.
Qed.

Lemma GRPCError_development_classified_witness :
  development devW = true /\
  status.FromError (Some (unwrapErr wrappedNotFound)) = (Some notFound, true) /\
  Status_Code (Some notFound) <> codes.OK /\
  logger.log specStart = Some defaultLogger /\
  GRPCError devW wrappedNotFound specStart
    = Some (Some (statusError
                    (mkStatus codes.NotFound
                              "lookup: rpc error: code = NotFound desc = no such user" [])),
            logged specStart defaultLogger [("error", logger.vError wrappedNotFound)]
                   logger.warnLvl "getting error...").
Proof.
  split; [reflexivity|]. split; [reflexivity|]. split; [discriminate|].
  split; [reflexivity|].
  apply (GRPCError_development_classified devW wrappedNotFound (Some notFound)
           defaultLogger specStart);
    [reflexivity | reflexivity | discriminate | reflexivity].
Defined.

(** C7: for an error whose [Unwrap] yields an error that [status.FromError]
    classifies with status [st], [GRPCError] returns, in production mode and
    in development mode (where the global logger must be set for the warning
    to be written), an error whose status code, as [status.Code] reads it,
    is the code of [st]. *)
Theorem GRPCError_preserves_code w err inner st p :
  errors.Unwrap err = Some inner ->
  status.FromError (Some inner) = (st, true) ->
  (development w = true -> logger.log p <> None) ->
  exists r p',
    GRPCError w err p = Some (r, p') /\
    status.Code r = Status_Code st.
Proof.
  intros Hu Hst Hlog.
  assert (Hw : unwrapErr err = inner) by (unfold unwrapErr; now rewrite Hu).
  rewrite <- Hw in Hst.
  rewrite (GRPCError_classified w err st p Hst).
  destruct (development w).
  - destruct (logger.log p) as [l|] eqn:El; [|now elim Hlog].
    unfold logger.WithFields, logger.get_log, bind. rewrite El. cbn.
    do 2 eexists. split; [reflexivity|]. apply Code_status_Error.
  - do 2 eexists. split; [reflexivity|].
    rewrite Code_Err. apply attachDetails_Code.
Qed.

Lemma GRPCError_preserves_code_witness :
  errors.Unwrap wrappedNotFound = Some (statusError notFound) /\
  status.FromError (Some (statusError notFound)) = (Some notFound, true) /\
  (development devW = true -> logger.log specStart <> None) /\
  exists r p',
    GRPCError devW wrappedNotFound specStart = Some (r, p') /\
    status.Code r = codes.NotFound.
Proof.
  split; [reflexivity|]. split; [reflexivity|]. split; [discriminate|].
  apply (GRPCError_preserves_code devW wrappedNotFound (statusError notFound)
           (Some notFound) specStart);
    [reflexivity | reflexivity | discriminate].
Defined.

(** X17: what [GRPCError] does to the package: nothing, or, in development
    mode with the global logger set, the one warning.  No run writes an
    error-level entry: the branch that logs "unexpected error..." and returns
    the catch-all value is never taken. *)
Lemma GRPCError_effect w err p r p' :
  GRPCError w err p = Some (r, p') ->
  p' = p \/
  (development w = true /\
   exists l, logger.log p = Some l /\
             p' = logged p l [("error", logger.vError err)] logger.warnLvl "getting error...").
Proof.
  destruct (status.FromError (Some (unwrapErr err))) as [st ok] eqn:E.
  destruct ok.
  - rewrite (GRPCError_classified w err st p E).
    destruct (development w).
    + unfold logger.WithFields, logger.get_log, bind.
      destruct (logger.log p) as [l|]; cbn; [|discriminate].
      intros H. inversion H. right. split; [reflexivity|]. now exists l.
    + intros H. inversion H. now left.
  - assert (H : snd (status.FromError (Some (unwrapErr err))) = false) by now rewrite E.
    rewrite (GRPCError_unclassified w err p H).
    intros H'. inversion H'. now left.
Qed.

(** The conversion of the early return is applied to the one-level unwrap:
    [status.FromContextError] reads the code off that error with
    [errors.Is]. *)
Example GRPCError_twice_wrapped_canceled :
  GRPCError prodW twiceWrappedCanceled specStart
    = Some (Some (statusError (mkStatus codes.Canceled "db: context canceled" [])),
            specStart).
Proof. reflexivity. Qed.

(** Errors that agree at their own level classify alike and get the same
    details attached. *)
Lemma same_level_FromError e1 e2 :
  same_level e1 e2 -> status.FromError (Some e1) = status.FromError (Some e2).
Proof.
  intros (_ & Ht & Hg & _). unfold status.FromError. now rewrite Hg, Ht.
Qed.

Lemma same_level_attachDetails e1 e2 st :
  same_level e1 e2 -> attachDetails st e1 = attachDetails st e2.
Proof.
  intros (_ & _ & _ & Hd). unfold attachDetails. now rewrite Hd.
Qed.

Lemma same_level_sentinel e1 e2 :
  same_level e1 e2 ->
  e2 = context.Canceled \/ e2 = context.DeadlineExceeded ->
  e1 = e2.
Proof.
  intros (Hs & _) [-> | ->].
  - specialize (Hs tCanceled). destruct e1; cbn in Hs; try discriminate Hs. reflexivity.
  - specialize (Hs tDeadlineExceeded). destruct e1; cbn in Hs; try discriminate Hs.
    reflexivity.
Qed.

(** The fallback for an unclassified error does read a cause below the
    one-level unwrap: two errors with the same texts, whose one-level unwraps
    agree at their own level and differ only in what they wrap, come back
    with the codes Canceled and Unknown. *)
Lemma GRPCError_fallback_reads_deeper_cause :
  err_Error twiceWrappedCanceled = err_Error twiceWrappedPlain /\
  same_level (unwrapErr twiceWrappedCanceled) (unwrapErr twiceWrappedPlain) /\
  errors.Unwrap (unwrapErr twiceWrappedCanceled) = Some context.Canceled /\
  errors.Unwrap (unwrapErr twiceWrappedPlain) = Some (errors.New "context canceled") /\
  GRPCError prodW twiceWrappedCanceled specStart
  = Some (Some (statusError (mkStatus codes.Canceled "db: context canceled" [])), specStart) /\
  GRPCError prodW twiceWrappedPlain specStart
  = Some (Some (statusError (mkStatus codes.Unknown "db: context canceled" [])), specStart).
Proof.
  split; [reflexivity|]. split.
  - unfold same_level. split; [intros t; destruct t; reflexivity|].
    split; [reflexivity|]. split; reflexivity.
  - split; [reflexivity|]. split; [reflexivity|]. split; reflexivity.
Qed.

(** C9, as the code has it: the error [GRPCError] tests against the context
    sentinels and classifies is the one-level unwrap of the error passed in:
    the immediate cause when [Unwrap] yields one and the error itself
    otherwise.  When that unwrap carries a status, the status returned is the
    one it carries: with its details attached in production mode, and its
    code with the text of the error passed in in development mode.  When the
    unwrap carries a status or is a context sentinel, nothing else of the
    error is consulted: two errors with the same text whose one-level unwraps
    agree at their own level get the same result, whatever those unwraps
    wrap and whatever methods the outer errors have. *)
Theorem GRPCError_uses_one_level_unwrap err :
  (forall cause, errors.Unwrap err = Some cause -> unwrapErr err = cause) /\
  (errors.Unwrap err = None -> unwrapErr err = err) /\
  (forall w p st,
      status.FromError (Some (unwrapErr err)) = (st, true) ->
      (development w = false ->
       GRPCError w err p = Some (status.Err (attachDetails st (unwrapErr err)), p)) /\
      (development w = true ->
       forall l, logger.log p = Some l ->
         GRPCError w err p
         = Some (status.Error (Status_Code st) (err_Error err),
                 logged p l [("error", logger.vError err)]
                        logger.warnLvl "getting error..."))) /\
  (forall w err' p,
      err_Error err' = err_Error err ->
      same_level (unwrapErr err') (unwrapErr err) ->
      snd (status.FromError (Some (unwrapErr err))) = true \/
      unwrapErr err = context.Canceled \/ unwrapErr err = context.DeadlineExceeded ->
      option_map fst (GRPCError w err' p) = option_map fst (GRPCError w err p)).
Proof.
  split; [|split; [|split]].
  - intros cause H. unfold unwrapErr. now rewrite H.
  - intros H. unfold unwrapErr. now rewrite H.
  - intros w p st Hst.
    rewrite (GRPCError_classified w err st p Hst). split.
    + intros ->. reflexivity.
    + intros -> l Hl.
      unfold logger.WithFields, logger.get_log, bind. rewrite Hl. reflexivity.
  - intros w err' p Ht Hs [Hc|Hc].
    + destruct (status.FromError (Some (unwrapErr err))) as [st ok] eqn:E.
      cbn in Hc. subst ok.
      pose proof (same_level_FromError _ _ Hs) as E'. rewrite E in E'.
      rewrite (GRPCError_classified w err st p E), (GRPCError_classified w err' st p E').
      rewrite Ht, (same_level_attachDetails _ _ st Hs).
      destruct (development w); [|reflexivity].
      unfold logger.WithFields, logger.get_log, bind.
      destruct (logger.log p); reflexivity.
    + pose proof (same_level_sentinel _ _ Hs Hc) as Hu.
      unfold GRPCError. rewrite Hu.
      destruct Hc as [-> | ->]; reflexivity.
Qed.

Lemma GRPCError_uses_one_level_unwrap_witness :
  let deep := fmt_Errorf_w "lookup: rpc error: code = NotFound desc = no such user"
                (dynError "rpc error: code = NotFound desc = no such user"
                          (Some (Some context.Canceled)) (Some (Some notFound)) None None) in
  (errors.Unwrap wrappedNotFound = Some (statusError notFound) /\
   unwrapErr wrappedNotFound = statusError notFound) /\
  (errors.Unwrap dialErr = None /\ unwrapErr dialErr = dialErr) /\
  (status.FromError (Some (unwrapErr wrappedNotFound)) = (Some notFound, true) /\
   development prodW = false /\
   GRPCError prodW wrappedNotFound specStart = Some (Some (statusError notFound), specStart)) /\
  (err_Error deep = err_Error wrappedNotFound /\
   same_level (unwrapErr deep) (unwrapErr wrappedNotFound) /\
   snd (status.FromError (Some (unwrapErr wrappedNotFound))) = true /\
   option_map fst (GRPCError devW deep specStart)
   = option_map fst (GRPCError devW wrappedNotFound specStart)).
Proof.
  intros deep.
  split; [split; [reflexivity|]|split; [split; [reflexivity|]|split]].
  - apply (proj1 (GRPCError_uses_one_level_unwrap wrappedNotFound)). reflexivity.
  - apply (proj1 (proj2 (GRPCError_uses_one_level_unwrap dialErr))). reflexivity.
  - split; [reflexivity|]. split; [reflexivity|].
    apply (proj1 (proj1 (proj2 (proj2 (GRPCError_uses_one_level_unwrap wrappedNotFound)))
                    prodW specStart (Some notFound) eq_refl)).
    reflexivity.
  - assert (Hs : same_level (unwrapErr deep) (unwrapErr wrappedNotFound)).
    { unfold same_level. split; [intros t; destruct t; reflexivity|].
      split; [reflexivity|]. split; reflexivity. }
    split; [reflexivity|]. split; [exact Hs|]. split; [reflexivity|].
    apply (proj2 (proj2 (proj2 (GRPCError_uses_one_level_unwrap wrappedNotFound)))
             devW deep specStart eq_refl Hs).
    left. reflexivity.
Defined.

Section Interceptor.
Context {Ctx Req Res Info : Type}.

(** C8: when the handler returns a nil error, the interceptor returns the
    handler's response and a nil error and leaves the package exactly as the
    handler left it: it logs nothing, and the outcome is the same for every
    mode and catch-all value, [GRPCError] not being run. *)
Theorem UnaryServerInterceptor_passthrough
        (dev : bool) (catch : option error) (ctx : Ctx) (req : Req) (info : Info)
        (handler : @UnaryHandler Ctx Req Res) (res : option Res) (p p' : logger.Pkg) :
  handler ctx req p = Some ((res, None), p') ->
  UnaryServerInterceptor dev catch ctx req info handler p = Some ((res, None), p').
Proof.
  intros H.
  unfold UnaryServerInterceptor, bind. rewrite H. reflexivity.
Qed.

(** When the handler fails, the interceptor drops the response and returns
    what [GRPCError] makes of the error. *)
Lemma UnaryServerInterceptor_error
      (dev : bool) (catch : option error) (ctx : Ctx) (req : Req) (info : Info)
      (handler : @UnaryHandler Ctx Req Res) (res : option Res) (err : error)
      (p p' : logger.Pkg) :
  handler ctx req p = Some ((res, Some err), p') ->
  UnaryServerInterceptor dev catch ctx req info handler p
    = match GRPCError {| development := dev; internalServerErr := catch |} err p' with
      | Some (e, p'') => Some ((None, e), p'')
      | None => None
      end.
Proof.
  intros H. unfold UnaryServerInterceptor, bind. rewrite H. reflexivity.
Qed.
End Interceptor.

Lemma UnaryServerInterceptor_passthrough_witness :
  (fun (_ : unit) (req : string) => ret (S := logger.Pkg) (Some req, @None error))
    tt "ping" specStart
    = Some ((Some "ping", None), specStart) /\
  UnaryServerInterceptor (Info := unit) false catchAll tt "ping" tt
    (fun (_ : unit) (req : string) => ret (Some req, None)) specStart
    = Some ((Some "ping", None), specStart).
Proof.
  split; [reflexivity|].
  apply (UnaryServerInterceptor_passthrough (Info := unit) false catchAll tt "ping" tt
           (fun (_ : unit) (req : string) => ret (Some req, None))
           (Some "ping") specStart specStart).
  reflexivity.
Defined.

(** * Further properties *)

(** ** Package logger *)
Section LoggerMore.
Variable newZapLogger : logger.Configuration -> nat -> logger.Logger * option error.
Variable newLogrusLogger : logger.Configuration -> nat -> logger.Logger * option error.

Let InitLogger := logger.InitLogger newZapLogger newLogrusLogger.
Let NewLogger := logger.NewLogger newZapLogger newLogrusLogger.

(** The first call of [InitLogger], written out. *)
Lemma InitLogger_first config backend p :
  logger.once p = false ->
  InitLogger config backend p
  = if (backend =? logger.LoggerBackendZap)%Z then
      let r := newZapLogger config (logger.next p) in
      Some (r, {| logger.log := fst r; logger.once := true;
                  logger.next := S (logger.next p); logger.entries := logger.entries p |})
    else if (backend =? logger.LoggerBackendLogrus)%Z then
      let r := newLogrusLogger config (logger.next p) in
      Some (r, {| logger.log := fst r; logger.once := true;
                  logger.next := S (logger.next p); logger.entries := logger.entries p |})
    else Some ((logger.log p, Some logger.errInvalidLoggerInstance), fired p).
Proof.
  intros Hp.
  unfold InitLogger, logger.InitLogger, logger.NewLogger, logger.construct,
    logger.set_log, logger.get_log, logger.once_Do, bind, ret.
  rewrite Hp.
  destruct (backend =? logger.LoggerBackendZap)%Z.
  - destruct (newZapLogger config (logger.next p)) as [l e]; reflexivity.
  - destruct (backend =? logger.LoggerBackendLogrus)%Z; [|reflexivity].
    destruct (newLogrusLogger config (logger.next p)) as [l e]; reflexivity.
Qed.

(** A call with the cell fired, written out. *)
Lemma InitLogger_fired config backend p :
  logger.once p = true ->
  InitLogger config backend p = Some ((logger.log p, None), p).
Proof.
  intros Hp.
  unfold InitLogger, logger.InitLogger, bind, logger.once_Do.
  rewrite Hp. reflexivity.
Qed.

(** Any call ends with the cell fired and returns the global logger of the
    state it ends in. *)
Lemma InitLogger_post config backend p l e p1 :
  InitLogger config backend p = Some ((l, e), p1) ->
  logger.once p1 = true /\ logger.log p1 = l.
Proof.
  destruct (logger.once p) eqn:Hp.
  - rewrite (InitLogger_fired _ _ _ Hp). intros H. inversion H; subst. auto.
  - rewrite (InitLogger_first _ _ _ Hp).
    destruct (backend =? logger.LoggerBackendZap)%Z.
    + destruct (newZapLogger config (logger.next p)) as [l0 e0]; cbn.
      intros H. inversion H; subst. auto.
    + destruct (backend =? logger.LoggerBackendLogrus)%Z.
      * destruct (newLogrusLogger config (logger.next p)) as [l0 e0]; cbn.
        intros H. inversion H; subst. auto.
      * intros H. inversion H; subst. auto.
Qed.

(** X1: [NewLogger] with a backend selector that is neither zap nor logrus
    returns a nil logger and the error "invalid logger instance", builds
    nothing and leaves the package exactly as it was. *)
Theorem NewLogger_unknown_backend config backend p :
  backend <> logger.LoggerBackendZap ->
  backend <> logger.LoggerBackendLogrus ->
  NewLogger config backend p
  = Some ((None, Some logger.errInvalidLoggerInstance), p).
Proof.
  intros Hz Hl. unfold NewLogger, logger.NewLogger.
  apply Z.eqb_neq in Hz, Hl. rewrite Hz, Hl. reflexivity.
Qed.

(** X2: [NewLogger] builds a private logger: whatever the backend selector
    and whether or not it fails, it returns, and the global logger, the
    once-cell and the entries logged so far are as before. *)
Theorem NewLogger_leaves_global config backend p :
  exists r p',
    NewLogger config backend p = Some (r, p') /\
    logger.log p' = logger.log p /\
    logger.once p' = logger.once p /\
    logger.entries p' = logger.entries p.
Proof.
  unfold NewLogger, logger.NewLogger, logger.construct, ret.
  destruct (backend =? logger.LoggerBackendZap)%Z; [repeat eexists|].
  destruct (backend =? logger.LoggerBackendLogrus)%Z; repeat eexists.
Qed.

(** X3: a first call of [InitLogger] with an unknown backend selector uses
    up the once-cell: every later call, also one with a valid backend and
    configuration, builds nothing and returns the logger that was global
    before the failed call, with a nil error. *)
Theorem InitLogger_failed_first_call_is_final config backend p :
  logger.once p = false ->
  backend <> logger.LoggerBackendZap ->
  backend <> logger.LoggerBackendLogrus ->
  exists p1,
    InitLogger config backend p
    = Some ((logger.log p, Some logger.errInvalidLoggerInstance), p1) /\
    forall config' backend',
      InitLogger config' backend' p1 = Some ((logger.log p, None), p1).
Proof.
  intros Hp Hz Hl. exists (fired p).
  rewrite (InitLogger_first _ _ _ Hp).
  apply Z.eqb_neq in Hz, Hl. rewrite Hz, Hl.
  split; [reflexivity|].
  intros config' backend'. now rewrite InitLogger_fired.
Qed.

(** X4: when the constructor of the selected backend fails on the first call
    and returns a nil logger, [InitLogger] returns that nil logger with the
    constructor's error and installs nil as the global logger: every later
    [InitLogger] call returns a nil logger with a nil error, and the
    package-level [WithFields] panics. *)
Theorem InitLogger_failed_construction config backend e p :
  logger.once p = false ->
  (backend = logger.LoggerBackendZap /\
   newZapLogger config (logger.next p) = (None, Some e)) \/
  (backend = logger.LoggerBackendLogrus /\
   newLogrusLogger config (logger.next p) = (None, Some e)) ->
  exists p1,
    InitLogger config backend p = Some ((None, Some e), p1) /\
    (forall config' backend',
        InitLogger config' backend' p1 = Some ((None, None), p1)) /\
    (forall keyValues, logger.WithFields keyValues p1 = None).
Proof.
  intros Hp H.
  eexists. rewrite (InitLogger_first _ _ _ Hp).
  destruct H as [[-> Hc]|[-> Hc]]; cbn; rewrite Hc; cbn.
  - split; [reflexivity|]. split.
    + intros config' backend'. now rewrite InitLogger_fired.
    + reflexivity.
  - split; [reflexivity|]. split.
    + intros config' backend'. now rewrite InitLogger_fired.
    + reflexivity.
Qed.

(** With the cell fired, a run of calls changes nothing and returns the
    global logger each time. *)
Lemma InitLogger_calls_fired rest p :
  logger.once p = true ->
  InitLogger_calls newZapLogger newLogrusLogger rest p
  = Some (map (fun _ => (logger.log p, None)) rest, p).
Proof.
  intros Hp. induction rest as [|[config backend] rest IH]; [reflexivity|].
  cbn [InitLogger_calls map]. unfold bind at 1.
  pose proof (InitLogger_fired config backend p Hp) as Hf.
  unfold InitLogger in Hf. rewrite Hf.
  unfold bind. rewrite IH. reflexivity.
Qed.

(** X5: in any run of [InitLogger] calls, every call returns, and every call
    after the first returns the logger the first call returned together with
    a nil error, whatever its arguments and whether or not the first call
    succeeded; the package is as the first call left it. *)
Theorem InitLogger_calls_after_first config backend rest p :
  exists r1 p1,
    InitLogger config backend p = Some (r1, p1) /\
    InitLogger_calls newZapLogger newLogrusLogger ((config, backend) :: rest) p
    = Some (r1 :: map (fun _ => (fst r1, None)) rest, p1).
Proof.
  destruct (InitLogger_returns newZapLogger newLogrusLogger config backend p)
    as (l & e & p1 & Hr & Ho & Hl).
  exists (l, e), p1. split; [exact Hr|].
  cbn [InitLogger_calls]. unfold bind at 1.
  fold InitLogger. unfold InitLogger in Hr |- *. rewrite Hr.
  unfold bind. rewrite (InitLogger_calls_fired rest p1 Ho).
  cbn. now rewrite Hl.
Qed.

(** X6: the logger a call of [InitLogger] returns is the one the package-level
    [WithFields] works on afterwards. *)
Theorem InitLogger_then_WithFields config backend p l e p1 keyValues :
  InitLogger config backend p = Some ((l, e), p1) ->
  logger.WithFields keyValues p1 = logger.Logger_WithFields l keyValues p1.
Proof.
  intros H. destruct (InitLogger_post _ _ _ _ _ _ H) as [_ Hl].
  unfold logger.WithFields, logger.get_log, bind. now rewrite Hl.
Qed.
End LoggerMore.

Lemma NewLogger_unknown_backend_witness :
  7%Z <> logger.LoggerBackendZap /\
  7%Z <> logger.LoggerBackendLogrus /\
  logger.NewLogger specZapLogger specLogrusLogger jsonConsole 7%Z specStart
  = Some ((None, Some logger.errInvalidLoggerInstance), specStart).
Proof.
  split; [discriminate|]. split; [discriminate|].
  apply (NewLogger_unknown_backend specZapLogger specLogrusLogger jsonConsole 7%Z specStart);
    discriminate.
Defined.

Lemma InitLogger_failed_first_call_is_final_witness :
  logger.once specStart = false /\
  7%Z <> logger.LoggerBackendZap /\
  7%Z <> logger.LoggerBackendLogrus /\
  exists p1,
    logger.InitLogger specZapLogger specLogrusLogger jsonConsole 7%Z specStart
    = Some ((logger.log specStart, Some logger.errInvalidLoggerInstance), p1) /\
    forall config' backend',
      logger.InitLogger specZapLogger specLogrusLogger config' backend' p1
      = Some ((logger.log specStart, None), p1).
Proof.
  split; [reflexivity|]. split; [discriminate|]. split; [discriminate|].
  apply (InitLogger_failed_first_call_is_final
           specZapLogger specLogrusLogger jsonConsole 7%Z specStart);
    [reflexivity | discriminate | discriminate].
Defined.

Lemma InitLogger_failed_construction_witness :
  logger.once specStart = false /\
  strictLogrusLogger verboseConsole (logger.next specStart)
  = (None, Some (errors.New "not a valid logrus Level: verbose")) /\
  exists p1,
    logger.InitLogger specZapLogger strictLogrusLogger verboseConsole
                      logger.LoggerBackendLogrus specStart
    = Some ((None, Some (errors.New "not a valid logrus Level: verbose")), p1) /\
    (forall config' backend',
        logger.InitLogger specZapLogger strictLogrusLogger config' backend' p1
        = Some ((None, None), p1)) /\
    (forall keyValues, logger.WithFields keyValues p1 = None).
Proof.
  split; [reflexivity|]. split; [reflexivity|].
  apply (InitLogger_failed_construction
           specZapLogger strictLogrusLogger verboseConsole logger.LoggerBackendLogrus
           (errors.New "not a valid logrus Level: verbose") specStart).
  - reflexivity.
  - right. split; reflexivity.
Defined.

Lemma InitLogger_then_WithFields_witness :
  let l := fst (specLogrusLogger jsonConsole 1) in
  let p1 := {| logger.log := l; logger.once := true;
               logger.next := 2; logger.entries := [] |} in
  logger.InitLogger specZapLogger specLogrusLogger jsonConsole logger.LoggerBackendLogrus
                    specStart
  = Some ((l, None), p1) /\
  logger.WithFields [("request", logger.vString "r-1")] p1
  = logger.Logger_WithFields l [("request", logger.vString "r-1")] p1.
Proof.
  intros l p1. split; [reflexivity|].
  apply (InitLogger_then_WithFields
           specZapLogger specLogrusLogger jsonConsole logger.LoggerBackendLogrus
           specStart l None p1).
  reflexivity.
Defined.

(** ** Package grpcerror *)

Lemma Err_Some_inv stt e :
  status.Err stt = Some e ->
  exists s, stt = Some s /\ e = statusError s /\ st_code s <> codes.OK.
Proof.
  unfold status.Err. destruct stt as [s|]; [|discriminate].
  destruct (st_code s =? codes.OK)%N eqn:E; [discriminate|].
  intros H. inversion H. exists s. apply N.eqb_neq in E. auto.
Qed.

Lemma Err_None_iff stt : status.Err stt = None <-> Status_Code stt = codes.OK.
Proof.
  unfold status.Err. destruct stt as [s|]; cbn; [|tauto].
  destruct (st_code s =? codes.OK)%N eqn:E.
  - apply N.eqb_eq in E. tauto.
  - apply N.eqb_neq in E. split; [discriminate | intros H; now elim E].
Qed.

(** The conversion of a context error never yields the code OK. *)
Lemma FromContextError_not_OK e :
  Status_Code (status.FromContextError (Some e)) <> codes.OK.
Proof.
  unfold status.FromContextError.
  destruct (errors.Is e tDeadlineExceeded); [discriminate|].
  destruct (errors.Is e tCanceled); discriminate.
Qed.

(** The two shapes of a run of [GRPCError]. *)
Lemma GRPCError_cases w err p :
  (exists st, status.FromError (Some (unwrapErr err)) = (st, true) /\
     GRPCError w err p
     = if development w then
         match logger.log p with
         | Some l =>
             Some (status.Error (Status_Code st) (err_Error err),
                   logged p l [("error", logger.vError err)] logger.warnLvl "getting error...")
         | None => None
         end
       else Some (status.Err (attachDetails st (unwrapErr err)), p)) \/
  (snd (status.FromError (Some (unwrapErr err))) = false /\
     GRPCError w err p
     = Some (status.Err (status.FromContextError (Some (unwrapErr err))), p)).
Proof.
  destruct (status.FromError (Some (unwrapErr err))) as [st ok] eqn:E.
  destruct ok.
  - left. exists st. split; [reflexivity|].
    rewrite (GRPCError_classified w err st p E).
    destruct (development w); [|reflexivity].
    unfold logger.WithFields, logger.get_log, bind.
    destruct (logger.log p); reflexivity.
  - right. split; [reflexivity|].
    apply GRPCError_unclassified. now rewrite E.
Qed.

(** A non-nil result of [GRPCError] is a status error with an error code. *)
Lemma GRPCError_Some_inv w err p e p' :
  GRPCError w err p = Some (Some e, p') ->
  exists s, e = statusError s /\ st_code s <> codes.OK.
Proof.
  destruct (GRPCError_cases w err p) as [(st & _ & ->)|[_ ->]].
  - destruct (development w).
    + destruct (logger.log p); [|discriminate].
      intros H. inversion H as [[He Hp]].
      destruct (Err_Some_inv _ _ He) as (s & _ & -> & Hc). eauto.
    + intros H. inversion H as [[He Hp]].
      destruct (Err_Some_inv _ _ He) as (s & _ & -> & Hc). eauto.
  - intros H. inversion H as [[He Hp]].
    destruct (Err_Some_inv _ _ He) as (s & _ & -> & Hc). eauto.
Qed.

(** X7: every non-nil error [GRPCError] returns is a [*status.Error] whose
    code is not OK, in both modes and for every input error: neither the
    error passed in nor its cause ever leaves the function as it came. *)
Theorem GRPCError_returns_status_error w err p e p' :
  GRPCError w err p = Some (Some e, p') ->
  exists s, e = statusError s /\ st_code s <> codes.OK.
Proof. exact (GRPCError_Some_inv w err p e p'). Qed.

(** X8: the configured catch-all value has no influence on [GRPCError]: two
    wrappers in the same mode give the same result on every error and every
    package state. *)
Theorem GRPCError_ignores_catch_all dev catch1 catch2 err p :
  GRPCError {| development := dev; internalServerErr := catch1 |} err p
  = GRPCError {| development := dev; internalServerErr := catch2 |} err p.
Proof.
  destruct (GRPCError_cases {| development := dev; internalServerErr := catch1 |} err p)
    as [(st & E & ->)|[E ->]].
  - rewrite (GRPCError_classified _ err st p E). cbn [development].
    destruct dev; [|reflexivity].
    unfold logger.WithFields, logger.get_log, bind.
    destruct (logger.log p); reflexivity.
  - now rewrite (GRPCError_unclassified _ err p E).
Qed.

(** X9: in production mode [GRPCError] always returns, whatever the global
    logger is, and leaves the package as it was: it logs nothing. *)
Theorem GRPCError_production_silent w err p :
  development w = false ->
  exists r, GRPCError w err p = Some (r, p).
Proof.
  intros Hd.
  destruct (GRPCError_cases w err p) as [(st & _ & ->)|[_ ->]]; rewrite ?Hd; eauto.
Qed.

(** X10: in development mode, when the global logger is nil, [GRPCError]
    panics on every error whose one-level unwrap classifies as a
    status-carrying error (the call of [WithFields] on the nil logger),
    whereas an error that fails classification is still translated. *)
Theorem GRPCError_development_nil_logger w err p :
  development w = true ->
  logger.log p = None ->
  (snd (status.FromError (Some (unwrapErr err))) = true ->
   GRPCError w err p = None) /\
  (snd (status.FromError (Some (unwrapErr err))) = false ->
   GRPCError w err p
   = Some (status.Err (status.FromContextError (Some (unwrapErr err))), p)).
Proof.
  intros Hd Hl.
  destruct (GRPCError_cases w err p) as [(st & E & ->)|[E ->]].
  - rewrite Hd, Hl, E. cbn. split; [reflexivity | discriminate].
  - rewrite E. split; [discriminate | reflexivity].
Qed.

(** X11: [GRPCError] returns a nil error exactly when the one-level unwrap of
    the error classifies as a status-carrying error whose status is nil or
    has code OK. *)
Theorem GRPCError_nil_iff_OK w err p r p' :
  GRPCError w err p = Some (r, p') ->
  (r = None <->
   snd (status.FromError (Some (unwrapErr err))) = true /\
   Status_Code (fst (status.FromError (Some (unwrapErr err)))) = codes.OK).
Proof.
  destruct (GRPCError_cases w err p) as [(st & E & ->)|[E ->]]; rewrite E; cbn [fst snd].
  - assert (Hr : forall r0 : option error,
               (r0 = None <-> Status_Code st = codes.OK) ->
               (r0 = None <-> true = true /\ Status_Code st = codes.OK)) by tauto.
    destruct (development w).
    + destruct (logger.log p); [|discriminate].
      intros H. inversion H; subst. apply Hr.
      unfold status.Error. rewrite Err_None_iff. reflexivity.
    + intros H. inversion H; subst. apply Hr.
      rewrite Err_None_iff, attachDetails_Code. reflexivity.
  - intros H. inversion H; subst. split.
    + intros Hn. apply Err_None_iff in Hn. now apply FromContextError_not_OK in Hn.
    + intros [Hf _]. discriminate Hf.
Qed.

(** X12: in production mode [GRPCError] is idempotent: translating an error
    it returned gives that same error again, and still logs nothing. *)
Theorem GRPCError_production_idempotent w err p e p' :
  development w = false ->
  GRPCError w err p = Some (Some e, p') ->
  GRPCError w e p' = Some (Some e, p').
Proof.
  intros Hd H.
  destruct (GRPCError_Some_inv _ _ _ _ _ H) as (s & -> & Hc).
  rewrite (GRPCError_classified w (statusError s) (Some s) p' eq_refl), Hd.
  cbn. apply N.eqb_neq in Hc. now rewrite Hc.
Qed.

(** Marshalling details that all marshal appends them in order; one detail
    that does not marshal makes the whole call fail. *)
Lemma appendDetails_valid anys acc :
  status.appendDetails acc (asMessages anys) = inl (acc ++ anys)%list.
Proof.
  revert acc. induction anys as [|[u v] anys IH]; intros acc; cbn.
  - now rewrite app_nil_r.
  - rewrite IH, <- app_assoc. reflexivity.
Qed.

Lemma appendDetails_invalid details reason acc :
  In (invalidMsg reason) details ->
  exists e, status.appendDetails acc details = inr e.
Proof.
  revert acc. induction details as [|[u v|r] details IH]; intros acc Hin; cbn.
  - destruct Hin.
  - destruct Hin as [Hin|Hin]; [discriminate Hin|]. now apply IH.
  - eauto.
Qed.

(** X13: in production mode, when the one-level unwrap of the error carries a
    status with an error code and has a [Details] method whose messages all
    marshal, [GRPCError] returns that status with its own code and message
    and with the details appended, in order, after the ones it had; the text
    of the error passed in is not used and nothing is logged. *)
Theorem GRPCError_production_attaches_details w err st anys p :
  development w = false ->
  status.FromError (Some (unwrapErr err)) = (Some st, true) ->
  st_code st <> codes.OK ->
  DetailsMethod (unwrapErr err) = Some (asMessages anys) ->
  GRPCError w err p
  = Some (Some (statusError
                  (mkStatus (st_code st) (st_message st) (st_details st ++ anys)%list)), p).
Proof.
  intros Hd Hst Hc Hm.
  rewrite (GRPCError_classified w err (Some st) p Hst), Hd.
  unfold attachDetails, status.WithDetails. rewrite Hm.
  apply N.eqb_neq in Hc. rewrite Hc, appendDetails_valid.
  cbn. now rewrite Hc.
Qed.

(** X14: attaching details is all or nothing: in production mode, when one of
    the messages of the [Details] method does not marshal, [GRPCError]
    returns the status exactly as the error carried it, without any of the
    details, and reports no failure. *)
Theorem GRPCError_production_details_all_or_nothing w err st details reason p :
  development w = false ->
  status.FromError (Some (unwrapErr err)) = (Some st, true) ->
  st_code st <> codes.OK ->
  DetailsMethod (unwrapErr err) = Some details ->
  In (invalidMsg reason) details ->
  GRPCError w err p = Some (Some (statusError st), p).
Proof.
  intros Hd Hst Hc Hm Hin.
  rewrite (GRPCError_classified w err (Some st) p Hst), Hd.
  unfold attachDetails, status.WithDetails. rewrite Hm.
  apply N.eqb_neq in Hc. rewrite Hc.
  destruct (appendDetails_invalid details reason (st_details st) Hin) as [e ->].
  cbn. now rewrite Hc.
Qed.

(** X15: a status error wrapped twice with [fmt.Errorf("...%w", ...)] is not
    recognised: the one-level unwrap is the inner wrapper, which carries no
    status, so in both modes [GRPCError] returns code Unknown with the inner
    wrapper's text, and the code of the status is lost. *)
Theorem GRPCError_twice_wrapped_status w err text s p :
  errors.Unwrap err = Some (fmt_Errorf_w text (statusError s)) ->
  GRPCError w err p
  = Some (Some (statusError (mkStatus codes.Unknown text [])), p).
Proof.
  intros Hu.
  assert (Hw : unwrapErr err = fmt_Errorf_w text (statusError s))
    by (unfold unwrapErr; now rewrite Hu).
  rewrite (GRPCError_unclassified w err p); rewrite Hw; reflexivity.
Qed.

Section InterceptorMore.
Context {Ctx Req Res Info : Type}.

(** X16: when the handler fails, the interceptor never passes the handler's
    response on: the response it returns is nil, and the error is the one
    [GRPCError] makes of the handler's error.  In particular a handler error
    whose one-level unwrap carries a nil status or the code OK leaves the
    interceptor, in production mode, as a nil response with a nil error. *)
Theorem UnaryServerInterceptor_drops_response
        (dev : bool) (catch : option error) (ctx : Ctx) (req : Req) (info : Info)
        (handler : @UnaryHandler Ctx Req Res) (res : option Res) (err : error)
        (p p' : logger.Pkg) :
  handler ctx req p = Some ((res, Some err), p') ->
  (forall r e p'',
      UnaryServerInterceptor dev catch ctx req info handler p = Some ((r, e), p'') ->
      r = None /\
      GRPCError {| development := dev; internalServerErr := catch |} err p' = Some (e, p'')) /\
  (dev = false ->
   snd (status.FromError (Some (unwrapErr err))) = true ->
   Status_Code (fst (status.FromError (Some (unwrapErr err)))) = codes.OK ->
   UnaryServerInterceptor dev catch ctx req info handler p = Some ((None, None), p')).
Proof.
  intros H.
  assert (Hi : UnaryServerInterceptor dev catch ctx req info handler p
               = match GRPCError {| development := dev; internalServerErr := catch |} err p' with
                 | Some (e, p'') => Some ((None, e), p'')
                 | None => None
                 end)
    by (unfold UnaryServerInterceptor, bind; rewrite H; reflexivity).
  rewrite Hi. split.
  - intros r e p''.
    destruct (GRPCError _ err p') as [[e0 p0]|]; [|discriminate].
    intros Hr. inversion Hr; subst. auto.
  - intros -> Hok Hcode.
    destruct (status.FromError (Some (unwrapErr err))) as [st ok] eqn:E.
    cbn in Hok, Hcode. subst ok.
    rewrite (GRPCError_classified _ err st p' E). cbn [development].
    rewrite (proj2 (Err_None_iff (attachDetails st (unwrapErr err)))); [reflexivity|].
    now rewrite attachDetails_Code.
Qed.
End InterceptorMore.

Lemma GRPCError_returns_status_error_witness :
  GRPCError prodW dialErr specStart
  = Some (Some (statusError
                  (mkStatus codes.Unknown "dial tcp 10.0.0.5:5432: connection refused" [])),
          specStart) /\
  exists s,
    statusError (mkStatus codes.Unknown "dial tcp 10.0.0.5:5432: connection refused" [])
    = statusError s /\ st_code s <> codes.OK.
Proof.
  split; [reflexivity|].
  apply (GRPCError_returns_status_error prodW dialErr specStart _ specStart).
  reflexivity.
Defined.

Lemma GRPCError_production_silent_witness :
  development prodW = false /\
  exists r, GRPCError prodW wrappedNotFound noLogger = Some (r, noLogger).
Proof.
  split; [reflexivity|].
  apply (GRPCError_production_silent prodW wrappedNotFound noLogger). reflexivity.
Defined.

Lemma GRPCError_development_nil_logger_witness :
  development devW = true /\
  logger.log noLogger = None /\
  snd (status.FromError (Some (unwrapErr wrappedNotFound))) = true /\
  GRPCError devW wrappedNotFound noLogger = None /\
  snd (status.FromError (Some (unwrapErr dialErr))) = false /\
  GRPCError devW dialErr noLogger
  = Some (status.Err (status.FromContextError (Some (unwrapErr dialErr))), noLogger).
Proof.
  split; [reflexivity|]. split; [reflexivity|]. split; [reflexivity|]. split.
  - apply (proj1 (GRPCError_development_nil_logger devW wrappedNotFound noLogger
                    eq_refl eq_refl)).
    reflexivity.
  - split; [reflexivity|].
    apply (proj2 (GRPCError_development_nil_logger devW dialErr noLogger
                    eq_refl eq_refl)).
    reflexivity.
Defined.

Lemma GRPCError_nil_iff_OK_witness :
  GRPCError prodW nilStatusErr specStart = Some (None, specStart) /\
  (@None error = None <->
   snd (status.FromError (Some (unwrapErr nilStatusErr))) = true /\
   Status_Code (fst (status.FromError (Some (unwrapErr nilStatusErr)))) = codes.OK).
Proof.
  split; [reflexivity|].
  apply (GRPCError_nil_iff_OK prodW nilStatusErr specStart None specStart).
  reflexivity.
Defined.

Lemma GRPCError_production_idempotent_witness :
  development prodW = false /\
  GRPCError prodW wrappedNotFound specStart
  = Some (Some (statusError notFound), specStart) /\
  GRPCError prodW (statusError notFound) specStart
  = Some (Some (statusError notFound), specStart).
Proof.
  split; [reflexivity|]. split; [reflexivity|].
  apply (GRPCError_production_idempotent prodW wrappedNotFound specStart
           (statusError notFound) specStart);
    reflexivity.
Defined.

Lemma GRPCError_production_attaches_details_witness :
  let anys := [("type.googleapis.com/google.rpc.BadRequest", "field=email")] in
  let st := mkStatus codes.InvalidArgument "bad request" [] in
  let err := fmt_Errorf_w "validate: bad request" (badRequest (asMessages anys)) in
  development prodW = false /\
  status.FromError (Some (unwrapErr err)) = (Some st, true) /\
  st_code st <> codes.OK /\
  DetailsMethod (unwrapErr err) = Some (asMessages anys) /\
  GRPCError prodW err specStart
  = Some (Some (statusError (mkStatus codes.InvalidArgument "bad request" anys)), specStart).
Proof.
  intros anys st err.
  split; [reflexivity|]. split; [reflexivity|]. split; [discriminate|].
  split; [reflexivity|].
  apply (GRPCError_production_attaches_details prodW err st anys specStart);
    [reflexivity | reflexivity | discriminate | reflexivity].
Defined.

Lemma GRPCError_production_details_all_or_nothing_witness :
  let details := [validMsg "type.googleapis.com/google.rpc.BadRequest" "field=email";
                  invalidMsg "proto: Marshal called with nil"] in
  let st := mkStatus codes.InvalidArgument "bad request" [] in
  let err := badRequest details in
  development prodW = false /\
  status.FromError (Some (unwrapErr err)) = (Some st, true) /\
  st_code st <> codes.OK /\
  DetailsMethod (unwrapErr err) = Some details /\
  In (invalidMsg "proto: Marshal called with nil") details /\
  GRPCError prodW err specStart = Some (Some (statusError st), specStart).
Proof.
  intros details st err.
  split; [reflexivity|]. split; [reflexivity|]. split; [discriminate|].
  split; [reflexivity|]. split; [right; left; reflexivity|].
  apply (GRPCError_production_details_all_or_nothing prodW err st details
           "proto: Marshal called with nil" specStart);
    [reflexivity | reflexivity | discriminate | reflexivity | right; left; reflexivity].
Defined.

Lemma GRPCError_twice_wrapped_status_witness :
  let inner := "lookup: rpc error: code = NotFound desc = no such user" in
  let err := fmt_Errorf_w ("handler: " ++ inner) wrappedNotFound in
  errors.Unwrap err = Some (fmt_Errorf_w inner (statusError notFound)) /\
  GRPCError devW err specStart
  = Some (Some (statusError (mkStatus codes.Unknown inner [])), specStart).
Proof.
  intros inner err. split; [reflexivity|].
  apply (GRPCError_twice_wrapped_status devW err inner notFound specStart).
  reflexivity.
Defined.

Lemma UnaryServerInterceptor_drops_response_witness :
  let handler := fun (_ : unit) (_ : string) =>
                   ret (S := logger.Pkg) (Some "partial", Some nilStatusErr) in
  handler tt "ping" specStart = Some ((Some "partial", Some nilStatusErr), specStart) /\
  snd (status.FromError (Some (unwrapErr nilStatusErr))) = true /\
  Status_Code (fst (status.FromError (Some (unwrapErr nilStatusErr)))) = codes.OK /\
  UnaryServerInterceptor (Info := unit) false catchAll tt "ping" tt handler specStart
  = Some ((None, None), specStart).
Proof.
  intros handler.
  split; [reflexivity|]. split; [reflexivity|]. split; [reflexivity|].
  apply (proj2 (UnaryServerInterceptor_drops_response (Info := unit) false catchAll tt "ping" tt
                  handler (Some "partial") nilStatusErr specStart specStart eq_refl));
    reflexivity.
Defined.

Lemma GRPCError_effect_witness :
  GRPCError devW wrappedNotFound specStart
  = Some (status.Error codes.NotFound (err_Error wrappedNotFound),
          logged specStart defaultLogger [("error", logger.vError wrappedNotFound)]
                 logger.warnLvl "getting error...") /\
  (logged specStart defaultLogger [("error", logger.vError wrappedNotFound)]
          logger.warnLvl "getting error..." = specStart \/
   (development devW = true /\
    exists l, logger.log specStart = Some l /\
              logged specStart defaultLogger [("error", logger.vError wrappedNotFound)]
                     logger.warnLvl "getting error..."
              = logged specStart l [("error", logger.vError wrappedNotFound)]
                       logger.warnLvl "getting error...")).
Proof.
  split; [reflexivity|].
  apply (GRPCError_effect devW wrappedNotFound specStart
           (status.Error codes.NotFound (err_Error wrappedNotFound))).
  reflexivity.
Defined.

(** ** Package client *)
Section Client.
Context {Conn T : Type}.
Variable zero : T.
Variable Dial : string -> list client.DialOption -> option Conn * option error.

Let NewClient := client.NewClient zero Dial.

(** X18: [NewClient] without options dials exactly as with the single option
    of insecure transport credentials; options that are given are passed to
    the dial as they are, so a successful dial with them yields the client
    made from the connection, the connection's [Close] and a nil error. *)
Theorem NewClient_options serverAddr newClientFunc :
  NewClient serverAddr newClientFunc []
  = NewClient serverAddr newClientFunc
              [client.WithTransportCredentials client.insecureCredentials] /\
  forall o opts conn,
    Dial serverAddr (o :: opts) = (conn, None) ->
    NewClient serverAddr newClientFunc (o :: opts)
    = (newClientFunc conn, Some conn, None).
Proof.
  split; [reflexivity|].
  intros o opts conn H.
  unfold NewClient, client.NewClient. cbn [length Nat.eqb]. now rewrite H.
Qed.

(** X19: [NewClient] returns a nil close function exactly when it returns an
    error; in that case the client is the zero value of its type whatever
    [newClientFunc] is, and otherwise the close function is the [Close] of
    the connection the client was made from. *)
Theorem NewClient_close_iff_no_error serverAddr newClientFunc opts c cl e :
  NewClient serverAddr newClientFunc opts = (c, cl, e) ->
  (cl = None <-> e <> None) /\
  (e <> None ->
   c = zero /\
   forall newClientFunc', NewClient serverAddr newClientFunc' opts = (zero, None, e)) /\
  (forall conn, cl = Some conn -> c = newClientFunc conn /\ e = None).
Proof.
  unfold NewClient, client.NewClient.
  destruct (Dial serverAddr _) as [conn [err|]] eqn:E; intros H; inversion H; subst.
  - split; [split; [discriminate | reflexivity]|].
    split; [|discriminate]. 
    intros _. split; [reflexivity|]. intros f'. reflexivity.
  - split; [split; [discriminate | intros Hn; now elim Hn]|].
    split; [intros Hn; now elim Hn|].
    intros conn' Hc. inversion Hc; subst. auto.
Qed.
End Client.

Lemma NewClient_options_witness :
  sampleDial "localhost:10443" [client.otherOption "WithBlock"]
  = (Some ("localhost:10443", 1), None) /\
  client.NewClient "" sampleDial "localhost:10443"
                   (fun conn => match conn with Some (a, _) => a | None => "" end)
                   [client.otherOption "WithBlock"]
  = ("localhost:10443", Some (Some ("localhost:10443", 1)), None).
Proof.
  split; [reflexivity|].
  apply (proj2 (NewClient_options "" sampleDial "localhost:10443"
                  (fun conn => match conn with Some (a, _) => a | None => "" end))
               (client.otherOption "WithBlock") [] (Some ("localhost:10443", 1))).
  reflexivity.
Defined.

Lemma NewClient_close_iff_no_error_witness :
  client.NewClient "" sampleDial "down:1"
                   (fun conn => match conn with Some (a, _) => a | None => "" end) []
  = ("", None, Some (errors.New "context deadline exceeded")) /\
  (@None (client.CloseFunc (Conn := string * nat)) = None
   <-> Some (errors.New "context deadline exceeded") <> None).
Proof.
  split; [reflexivity|].
  apply (proj1 (NewClient_close_iff_no_error "" sampleDial "down:1"
                  (fun conn => match conn with Some (a, _) => a | None => "" end) []
                  "" None (Some (errors.New "context deadline exceeded")) eq_refl)).
Defined.

(** X20: in development mode a status error handed to [GRPCError] directly
    (not wrapped) comes back with its code, but with its message replaced by
    the full rendering "rpc error: code = ... desc = ..." of the status and
    without its details; the warning is logged. *)
Theorem GRPCError_development_renders_status w s l p :
  development w = true ->
  st_code s <> codes.OK ->
  logger.log p = Some l ->
  GRPCError w (statusError s) p
  = Some (Some (statusError
                  (mkStatus (st_code s)
                            ("rpc error: code = " ++ codes.String (st_code s)
                               ++ " desc = " ++ st_message s)
                            [])),
          logged p l [("error", logger.vError (statusError s))]
                 logger.warnLvl "getting error...").
Proof.
  intros Hd Hc Hl.
  rewrite (GRPCError_classified w (statusError s) (Some s) p eq_refl), Hd.
  unfold logger.WithFields, logger.get_log, bind. rewrite Hl. cbn.
  unfold status.Error, status.Err, status.New, ret. cbn.
  apply N.eqb_neq in Hc. now rewrite Hc.
Qed.

Lemma GRPCError_development_renders_status_witness :
  development devW = true /\
  st_code notFound <> codes.OK /\
  logger.log specStart = Some defaultLogger /\
  GRPCError devW (statusError notFound) specStart
  = Some (Some (statusError
                  (mkStatus codes.NotFound
                            "rpc error: code = NotFound desc = no such user" [])),
          logged specStart defaultLogger [("error", logger.vError (statusError notFound))]
                 logger.warnLvl "getting error...").
Proof.
  split; [reflexivity|]. split; [discriminate|]. split; [reflexivity|].
  apply (GRPCError_development_renders_status devW notFound defaultLogger specStart);
    [reflexivity | discriminate | reflexivity].
Defined.
